(** * Radius and effective-temperature fits of an accreting planet

    A shallow embedding of [python/RpTeff_from_Mdot_Mp_fit.py] and of the
    legacy [Rp_from_Mdot_Mp_Popsynthfit.py].

    Modelling decisions.
    - A float is a real number of [R] and the arithmetic is the exact one:
      there is no rounding, no infinity and no NaN.  Where the float code
      would yield NaN or an infinity (logarithm of a non-positive number,
      square root of a negative one, division by zero, a negative fitted
      radius) the functions of [R] are total and return a conventional
      value, which says nothing about the code.  A theorem that asserts a
      value or a bound therefore carries the conditions under which the
      float computation is a finite number: positive [Mdot], [Mp], [ffill]
      and a positive fitted radius.
    - Overflow.  Python's [x ** y] on two Python floats raises
      [OverflowError] when the result leaves the float range; NumPy's power
      (on np.float64 and on arrays) returns an infinity instead.  The
      predicate [pow_in_range x n] says that [x ^ n] is within the largest
      float [float_max], and [float_pow] is Python's power with its
      [OverflowError].  [Tint] is a Python float, in the driver as in the
      calls the docstrings describe, and [Tint**4.] is the first thing
      [Teff_from_Mdot_Mp] evaluates: there the exception is part of the
      definition.  The other powers act on values that come from NumPy
      ([np.log10] and what is computed from it return np.float64), except
      [(Mp-1.0)**2.] in the two radius fits and the two [abs(..)**2.] of
      [fdown1_Popsynthfit] when these are called on Python floats: those
      definitions are the NumPy reading, and a theorem that asserts what a
      call returns carries [pow_in_range] on these powers, so that it holds
      for Python floats too.
    - [np.log10 x] is [ln x / ln 10], [np.exp] is [exp], [np.sqrt] is [sqrt],
      [np.pi] is [PI], [abs] is [Rabs], [np.fmin] and [np.fmax] are [Rmin]
      and [Rmax] (they differ on NaN only).
    - [x**2.], [x**3.] and [x**4.] are the integer powers [x^2], [x^3],
      [x^4] (a float raised to an integer-valued float; negative bases are
      fine).  [x**0.25] is the fourth root, [sqrt (sqrt x)], which is what
      NumPy returns for [0 <= x].
    - The [Pop] argument is a Python string.  A call either returns a
      float or raises an exception: type [result]. *)

From Stdlib Require Import Reals Lra ZArith String Ascii List.
Import ListNotations.

Open Scope R_scope.

(** ** Outcome of a call: a value, or a raised exception *)

Inductive exn : Type :=
| Exception (msg : string)
| OverflowError (msg : string).

Inductive result (A : Type) : Type :=
| Return (a : A)
| Raise (e : exn).

Arguments Return {A} a.
Arguments Raise {A} e.

Definition bind {A B : Type} (m : result A) (k : A -> result B) : result B :=
  match m with
  | Return a => k a
  | Raise e => Raise e
  end.

Notation "x <- m ;; k" := (bind m (fun x => k))
  (at level 61, m at next level, right associativity).

(** ** NumPy primitives over [R] *)

Definition log10 (x : R) : R := ln x / ln 10.

(** [x**0.25] *)
Definition pow_quarter (x : R) : R := sqrt (sqrt x).

(** ** The float range *)

(** The largest float, [(2^53 - 1) * 2^971], and the smallest positive
    normal float, [2^-1022]. *)
Definition float_max_Z : Z := Eval vm_compute in ((2 ^ 53 - 1) * 2 ^ 971)%Z.
Definition float_max : R := IZR float_max_Z.


(** [x ^ n] does not overflow. *)
Definition pow_in_range (x : R) (n : nat) : Prop := Rabs (x ^ n) <= float_max.


(** The message of Python's [OverflowError] for a power. *)
Definition range_message : string := "(34, 'Numerical result out of range')".

(** [x ** n.] on Python floats. *)
Definition float_pow (x : R) (n : nat) : result R :=
  if Rle_dec (Rabs (x ^ n)) float_max then Return (x ^ n)
  else Raise (OverflowError range_message).

(** ** String formatting *)

(** The double-quote character (code 34). *)
Definition dquote : string := String (ascii_of_nat 34) EmptyString.

(** The message of the exception: the format string of the source, with
    [Pop] put in its place holder between double quotes. *)
Definition Pop_message (Pop : string) : string :=
  ("Pop should be " ++ dquote ++ "warm" ++ dquote ++ " or "
     ++ dquote ++ "cold" ++ dquote ++ " but given "
     ++ dquote ++ Pop ++ dquote)%string.

(** ** [python/RpTeff_from_Mdot_Mp_fit.py] *)

Definition Rp_from_Mdot_Mp (Mdot Mp : R) (Pop : string) : result R :=
  let lm2 := log10 (Mdot / 1e-2) in
  if (Pop =? "warm")%string then
    Return (0.411 - 0.244 * lm2 + 3.45 * exp (0.762 * lm2)
            + (-0.489 - 0.0961 * lm2 + 0.652 * exp (0.353 * lm2)) * (Mp - 1.0)
            + (-0.228 - 0.00106 * lm2 + 0.226 * exp (0.000220 * lm2))
              * (Mp - 1.0) ^ 2)
  else if (Pop =? "cold")%string then
    Return (1.53 + 0.111 * lm2 + 1.06 * exp (0.906 * lm2)
            + (-0.195 - 0.0307 * lm2 + 0.0977 * exp (0.000695 * lm2))
              * (Mp - 1.0)
            + (-0.250 + 0.000276 * lm2 + 0.254 * exp (0.000214 * lm2))
              * (Mp - 1.0) ^ 2)
  else
    Raise (Exception (Pop_message Pop)).

(** [v0simple(Mp,Rp)]: free-fall velocity for a fall from infinity. *)
Definition v0simple (Mp Rp : R) : R :=
  -1 * sqrt (2 * 6.67e-8 * Mp * 1.898e30 / (Rp * 7.15e9)).

Definition v_MdotMp (Mdot Mp : R) (Pop : string) : result R :=
  Rp <- Rp_from_Mdot_Mp Mdot Mp Pop ;;
  Return (v0simple Mp Rp).

(** Hydrogen mass fraction of the incoming gas. *)
Definition X_H_MASSFRAC : R := 0.738.

Definition n_MdotMp (Mdot Mp : R) (Pop : string) (ffill : R) : result R :=
  Rp <- Rp_from_Mdot_Mp Mdot Mp Pop ;;
  v <- v_MdotMp Mdot Mp Pop ;;
  Return (Mdot * 1.893e20
          / (4 * PI * (Rp * 7.15e9) ^ 2 * ffill * - v * 1.673e-24
             / X_H_MASSFRAC)).

Definition Tacc_MdotMp (Mdot Mp : R) (Pop : string) (ffill : R) : result R :=
  Rp <- Rp_from_Mdot_Mp Mdot Mp Pop ;;
  Return (pow_quarter
            (6.67e-8 * Mp * 1.898e30 * Mdot * 1.893e20
             / (ffill * 4 * PI * (Rp * 7.15e9) ^ 3 * 5.67e-5))).

Definition fdown1_Popsynthfit (lgn0 v0 : R) : R :=
  0.703752 - 0.0967987 * (lgn0 - 12) - 0.0254579 * Rabs (lgn0 - 12) ^ 2
  + (-0.00527886 - 0.00146833 * (lgn0 - 12)
     - 0.000321504 * Rabs (lgn0 - 12) ^ 2) * (v0 - 100)
  - 9.91492e-06 * Rabs (v0 - 100) ^ 2.

(** Limit fdown to [0,1] for physical reasons. *)
Definition fdown_Popsynthfit (lgn0 v0 : R) : R :=
  Rmax (Rmin (fdown1_Popsynthfit lgn0 v0) 1) 0.

Definition Teff_from_Mdot_Mp (Mdot Mp Tint : R) (Pop : string) (ffill : R)
  : result R :=
  Tint4 <- float_pow Tint 4 ;;
  n <- n_MdotMp Mdot Mp Pop ffill ;;
  v <- v_MdotMp Mdot Mp Pop ;;
  Tacc <- Tacc_MdotMp Mdot Mp Pop ffill ;;
  Return (pow_quarter
            (Tint4 + fdown_Popsynthfit (log10 n) (v / -1e5) * Tacc ^ 4)).

(** ** [Rp_from_Mdot_Mp_Popsynthfit.py] (legacy) *)

Definition Rp_from_Mdot_Mp_Popsynthfit (Mdot Mp : R) (Pop : string)
  : result R :=
  let lm2 := log10 (Mdot / 1e-2) in
  if (Pop =? "warm")%string then
    Return (0.411 - 0.244 * lm2 + 3.45 * exp (0.762 * lm2)
            + (-0.489 - 0.0961 * lm2 + 0.652 * exp (0.353 * lm2)) * (Mp - 1.0)
            + (-0.228 - 0.00106 * lm2 + 0.226 * exp (0.000220 * lm2))
              * (Mp - 1.0) ^ 2)
  else
    Return (1.53 + 0.111 * lm2 + 1.06 * exp (0.906 * lm2)
            + (-0.195 - 0.0307 * lm2 + 0.0977 * exp (0.000695 * lm2))
              * (Mp - 1.0)
            + (-0.250 + 0.000276 * lm2 + 0.254 * exp (0.000214 * lm2))
              * (Mp - 1.0) ^ 2).


(** ** The driver [test_RpTeff_fit]

    The driver sweeps one variable over a grid of 70 values, holds the
    other one fixed, evaluates the two fits on the arrays, saves the four
    columns and prints what it does.  Its arrays are lists; what it prints
    and saves is the list of its effects, in the order they happen.  The
    text of a float ([format] on a float) is not a matter of real numbers:
    it is the parameter [format_float]. *)

(** A one-dimensional NumPy array. *)
Definition ndarray : Type := list R.

(** [np.linspace(start, stop, num)]: the sample [i] is [i * step + start]
    with [step = (stop - start) / (num - 1)]. *)
Definition linspace (start stop : R) (num : nat) : ndarray :=
  let step := (stop - start) / INR (num - 1) in
  map (fun i => INR i * step + start) (seq 0 num).

(** [np.logspace(start, stop, num)]: ten to the samples of [linspace]. *)
Definition logspace (start stop : R) (num : nat) : ndarray :=
  map (Rpower 10) (linspace start stop num).

Definition ones_like (a : ndarray) : ndarray := map (fun _ => 1) a.

(** A float times an array. *)
Definition scale (c : R) (a : ndarray) : ndarray := map (fun x => c * x) a.

(** A fit function called on two arrays of one length, as the driver does:
    every operation of its body acts element by element, so that the
    element [i] of the result is the scalar call on the elements [i]; the
    test on [Pop] does not depend on the element, so that an exception is
    the one of the first element. *)
Fixpoint elementwise (f : R -> R -> result R) (a b : ndarray)
  : result ndarray :=
  match a, b with
  | x :: a', y :: b' =>
      r <- f x y ;;
      rs <- elementwise f a' b' ;;
      Return (r :: rs)
  | _, _ => Return []
  end.

(** A text of floats that is right on the three floats of the examples
    below: Python prints 20.0, 0.001 and 1.0 for them. *)
Definition format_example (x : R) : string :=
  if Req_dec_T x 20 then "20.0"
  else if Req_dec_T x 1e-3 then "0.001"
  else "1.0".

(** What ends a run of the driver early. *)
Inductive error : Type :=
| UnboundLocalError (name : string)
| Uncaught (e : exn).

Inductive effect : Type :=
| print (line : string)
| savetxt (fname : string) (rows : list (R * R * R * R)).

(** The two [if mode == ...] blocks: the local variables [Mdot] and [Mp]
    ([None] while unbound) and what has been printed. *)
Definition test_RpTeff_fit_grid (format_float : R -> string) (mode : string)
  : option ndarray * option ndarray * list effect :=
  let '(Mdot, Mp, out) :=
    if (mode =? "Mdot")%string then
      let Mp := 20 in
      let Mdot := logspace (-5) (-1) 70 in
      let Mp := scale Mp (ones_like Mdot) in
      (Some Mdot, Some Mp,
       [print ("   Mp = " ++ format_float (nth 0 Mp 0) ++ " MJ")%string])
    else (None, None, []) in
  if (mode =? "Mp")%string then
    let Mdot := 1e-3 in
    let Mp := linspace 0.5 20 70 in
    let Mdot := scale Mdot (ones_like Mp) in
    (Some Mdot, Some Mp,
     out ++ [print ("   Mdot = " ++ format_float (nth 0 Mdot 0)
                      ++ " ME/yr")%string])
  else (Mdot, Mp, out).

(** [test_RpTeff_fit(mode, Pop, ffill, Tint)]: the effects of the run and
    the error that ended it, if any. *)
Definition test_RpTeff_fit (format_float : R -> string) (mode Pop : string)
  (ffill Tint : R) : list effect * option error :=
  let '(Mdot, Mp, printed) := test_RpTeff_fit_grid format_float mode in
  match Mdot, Mp with
  | None, _ => (printed, Some (UnboundLocalError "Mdot"))
  | Some _, None => (printed, Some (UnboundLocalError "Mp"))
  | Some Mdot, Some Mp =>
      match elementwise (fun x y => Rp_from_Mdot_Mp x y Pop) Mdot Mp with
      | Raise e => (printed, Some (Uncaught e))
      | Return Rp =>
          match elementwise
                  (fun x y => Teff_from_Mdot_Mp x y Tint Pop ffill) Mdot Mp
          with
          | Raise e => (printed, Some (Uncaught e))
          | Return Teff =>
              let out := ("test_RpTeff_fit_" ++ mode ++ "_" ++ Pop
                            ++ "_ffill" ++ format_float ffill ++ ".dat")%string
              in
              (printed
                 ++ [savetxt out
                       (combine (combine (combine Mdot Mp) Rp) Teff);
                     print ("-> " ++ out)%string],
               None)
          end
      end
  end.

(** ** Specification-side definitions

    Definitions that follow the words of the specification; the theorems
    below compare them with the functions of the source. *)

(** [Pop] is one of the two populations. *)
Definition valid_Pop (Pop : string) : Prop :=
  Pop = "warm"%string \/ Pop = "cold"%string.

(** The message [msg] names the value [s]: [s] occurs in it. *)
Definition names (msg s : string) : Prop :=
  exists pre post : string, msg = (pre ++ s ++ post)%string.

(** Physical constants of the specification, in cgs units. *)
Definition G_cgs : R := 6.67e-8.
Definition MJ_g : R := 1.898e30.
Definition RJ_cm : R := 7.15e9.
Definition ME_yr_g_s : R := 1.893e20.
Definition m_H : R := 1.673e-24.
Definition X_H : R := 0.738.

(** [v = -sqrt(2 G Mp_grams / Rp_cm)] *)
Definition FreefallVelocity_spec (Mp_grams Rp_cm : R) : R :=
  - sqrt (2 * G_cgs * Mp_grams / Rp_cm).

(** [n = Mdot_g_s / (4 pi Rp_cm^2 ffill |v| m_H / X_H)] *)
Definition PreshockDensity_spec (Mdot_g_s Rp_cm ffill v : R) : R :=
  Mdot_g_s / (4 * PI * Rp_cm ^ 2 * ffill * Rabs v * (m_H / X_H)).

(** * Properties *)

(** ** The primitives *)

Lemma log10_1 : log10 1 = 0.
Proof. unfold log10. rewrite ln_1. lra. Qed.

Lemma float_pow_in_range (x : R) (n : nat) :
  pow_in_range x n -> float_pow x n = Return (x ^ n).
Proof.
  intros H. unfold float_pow.
  destruct (Rle_dec (Rabs (x ^ n)) float_max) as [_ | Hn];
    [reflexivity | contradiction].
Qed.

Lemma float_pow_out_of_range (x : R) (n : nat) :
  ~ pow_in_range x n -> float_pow x n = Raise (OverflowError range_message).
Proof.
  intros H. unfold float_pow.
  destruct (Rle_dec (Rabs (x ^ n)) float_max) as [Hy | _];
    [contradiction | reflexivity].
Qed.

Lemma float_max_bounds : 1e308 <= float_max < 1.8e308.
Proof. unfold float_max, float_max_Z. lra. Qed.

(** A square is in range when its base is at most [1e154] in absolute
    value. *)
Lemma pow_in_range_2 (x : R) : Rabs x <= 1e154 -> pow_in_range x 2.
Proof.
  intros H. unfold pow_in_range. rewrite <- RPow_abs.
  pose proof (Rabs_pos x) as H0. pose proof float_max_bounds as Hm.
  assert (Hsq : Rabs x ^ 2 <= 1e154 ^ 2) by (apply pow_incr; lra).
  lra.
Qed.

(** A fourth power is in range when its base is at most [1e77] in absolute
    value. *)
Lemma pow_in_range_4 (x : R) : Rabs x <= 1e77 -> pow_in_range x 4.
Proof.
  intros H. unfold pow_in_range. rewrite <- RPow_abs.
  pose proof (Rabs_pos x) as H0. pose proof float_max_bounds as Hm.
  assert (Hsq : Rabs x ^ 4 <= 1e77 ^ 4) by (apply pow_incr; lra).
  lra.
Qed.



Lemma pow_quarter_lt (x y : R) : 0 <= x < y -> pow_quarter x < pow_quarter y.
Proof.
  intros [Hx Hxy]. unfold pow_quarter.
  apply sqrt_lt_1_alt. split; [apply sqrt_pos|].
  apply sqrt_lt_1_alt. now split.
Qed.

Lemma pow4_nonneg (x : R) : 0 <= x ^ 4.
Proof. replace (x ^ 4) with ((x * x) * (x * x)) by ring. nra. Qed.

Lemma pow4_lt (x y : R) : 0 <= x < y -> x ^ 4 < y ^ 4.
Proof.
  intros [Hx Hxy].
  assert (Hsq : x * x < y * y) by nra.
  replace (x ^ 4) with ((x * x) * (x * x)) by ring.
  replace (y ^ 4) with ((y * y) * (y * y)) by ring.
  nra.
Qed.

(** ** The population selector *)

Lemma Rp_from_Mdot_Mp_invalid (Mdot Mp : R) (Pop : string) :
  ~ valid_Pop Pop ->
  Rp_from_Mdot_Mp Mdot Mp Pop = Raise (Exception (Pop_message Pop)).
Proof.
  intros Hbad. unfold Rp_from_Mdot_Mp.
  destruct (String.eqb_spec Pop "warm") as [Hw | _].
  - exfalso. apply Hbad. now left.
  - destruct (String.eqb_spec Pop "cold") as [Hc | _].
    + exfalso. apply Hbad. now right.
    + reflexivity.
Qed.

Lemma Rp_from_Mdot_Mp_valid (Mdot Mp : R) (Pop : string) :
  valid_Pop Pop -> exists Rp : R, Rp_from_Mdot_Mp Mdot Mp Pop = Return Rp.
Proof.
  intros [-> | ->]; unfold Rp_from_Mdot_Mp; simpl; eexists; reflexivity.
Qed.

Lemma Rp_from_Mdot_Mp_warm_at_1 :
  Rp_from_Mdot_Mp 1e-2 1 "warm" = Return 3.861.
Proof.
  unfold Rp_from_Mdot_Mp. cbn [String.eqb Ascii.eqb Bool.eqb].
  replace (1e-2 / 1e-2) with 1 by lra.
  rewrite log10_1, !Rmult_0_r, exp_0. f_equal. lra.
Qed.

Lemma Pop_message_names (Pop : string) : names (Pop_message Pop) Pop.
Proof.
  unfold names, Pop_message.
  exists ("Pop should be " ++ dquote ++ "warm" ++ dquote ++ " or "
            ++ dquote ++ "cold" ++ dquote ++ " but given " ++ dquote)%string.
  exists dquote. reflexivity.
Qed.

(** ** Shape of the composed functions on a returned radius *)

Lemma v_MdotMp_Return (Mdot Mp Rp : R) (Pop : string) :
  Rp_from_Mdot_Mp Mdot Mp Pop = Return Rp ->
  v_MdotMp Mdot Mp Pop = Return (v0simple Mp Rp).
Proof. intros HRp. unfold v_MdotMp. rewrite HRp. reflexivity. Qed.

Lemma n_MdotMp_Return (Mdot Mp Rp ffill : R) (Pop : string) :
  Rp_from_Mdot_Mp Mdot Mp Pop = Return Rp ->
  n_MdotMp Mdot Mp Pop ffill =
  Return (Mdot * 1.893e20
          / (4 * PI * (Rp * 7.15e9) ^ 2 * ffill * - v0simple Mp Rp * 1.673e-24
             / X_H_MASSFRAC)).
Proof.
  intros HRp. unfold n_MdotMp.
  rewrite (v_MdotMp_Return _ _ _ _ HRp), HRp. reflexivity.
Qed.

Lemma fdown_Popsynthfit_nonneg (lgn0 v0 : R) : 0 <= fdown_Popsynthfit lgn0 v0.
Proof. unfold fdown_Popsynthfit. apply Rmax_r. Qed.


(** On a valid population, and for a [Tint] whose fourth power is in the
    float range, the effective temperature is the fourth root of [Tint^4]
    plus a non-negative term that does not depend on [Tint]. *)
Lemma Teff_from_Mdot_Mp_shape (Mdot Mp ffill : R) (Pop : string) :
  valid_Pop Pop ->
  exists A : R,
    0 <= A /\
    forall Tint : R,
      pow_in_range Tint 4 ->
      Teff_from_Mdot_Mp Mdot Mp Tint Pop ffill
      = Return (pow_quarter (Tint ^ 4 + A)).
Proof.
  intros Hv. destruct (Rp_from_Mdot_Mp_valid Mdot Mp Pop Hv) as [Rp HRp].
  unfold Teff_from_Mdot_Mp, Tacc_MdotMp.
  rewrite (n_MdotMp_Return _ _ _ _ _ HRp), (v_MdotMp_Return _ _ _ _ HRp), HRp.
  cbn [bind].
  eexists. split.
  2:{ intros Tint HT. rewrite (float_pow_in_range _ _ HT). cbn [bind].
      reflexivity. }
  apply Rmult_le_pos; [apply fdown_Popsynthfit_nonneg | apply pow4_nonneg].
Qed.

(** ** Radius fit *)

(** C1. For every [Mdot], [Mp] and every [Pop] that is neither warm nor
    cold, [Rp_from_Mdot_Mp] raises the exception whose message names the
    offending [Pop], and returns no number. *)
Theorem Rp_from_Mdot_Mp_rejects_unknown_Pop (Mdot Mp : R) (Pop : string) :
  Pop <> "warm"%string -> Pop <> "cold"%string ->
  Rp_from_Mdot_Mp Mdot Mp Pop = Raise (Exception (Pop_message Pop))
  /\ names (Pop_message Pop) Pop
  /\ forall r : R, Rp_from_Mdot_Mp Mdot Mp Pop <> Return r.
Proof.
  intros Hw Hc.
  assert (Hraise : Rp_from_Mdot_Mp Mdot Mp Pop
                   = Raise (Exception (Pop_message Pop))).
  { apply Rp_from_Mdot_Mp_invalid. intros [H | H]; contradiction. }
  split; [exact Hraise |]. split; [apply Pop_message_names |].
  intros r Hr. rewrite Hraise in Hr. discriminate Hr.
Qed.

Lemma Rp_from_Mdot_Mp_rejects_hot :
  Rp_from_Mdot_Mp 1e-3 5 "hot" = Raise (Exception (Pop_message "hot"))
  /\ names (Pop_message "hot") "hot"
  /\ forall r : R, Rp_from_Mdot_Mp 1e-3 5 "hot" <> Return r.
Proof.
  apply (Rp_from_Mdot_Mp_rejects_unknown_Pop 1e-3 5 "hot"); discriminate.
Defined.

(** C3. At [Mdot = 1e-2] and [Mp = 1.0] the radius is the constant term of
    the polynomial: 3.861 for the warm population and 2.59 for the cold
    one. *)
Theorem Rp_from_Mdot_Mp_reference_point :
  Rp_from_Mdot_Mp 1e-2 1.0 "warm" = Return (0.411 + 3.45)
  /\ Rp_from_Mdot_Mp 1e-2 1.0 "warm" = Return 3.861
  /\ Rp_from_Mdot_Mp 1e-2 1.0 "cold" = Return (1.53 + 1.06)
  /\ Rp_from_Mdot_Mp 1e-2 1.0 "cold" = Return 2.59.
Proof.
  unfold Rp_from_Mdot_Mp. cbn [String.eqb Ascii.eqb Bool.eqb].
  replace (1e-2 / 1e-2) with 1 by lra.
  rewrite log10_1, !Rmult_0_r, exp_0.
  repeat split; f_equal; lra.
Qed.

(** ** Legacy radius fit *)



(** C9. On the warm and on the cold population the legacy function and
    [Rp_from_Mdot_Mp] return the same radius. *)
Theorem Rp_from_Mdot_Mp_Popsynthfit_agrees (Mdot Mp : R) (Pop : string) :
  0 < Mdot -> valid_Pop Pop ->
  exists Rp : R,
    Rp_from_Mdot_Mp_Popsynthfit Mdot Mp Pop = Return Rp
    /\ Rp_from_Mdot_Mp Mdot Mp Pop = Return Rp.
Proof.
  intros _ [-> | ->];
    unfold Rp_from_Mdot_Mp_Popsynthfit, Rp_from_Mdot_Mp;
    cbn [String.eqb Ascii.eqb Bool.eqb];
    eexists; split; reflexivity.
Qed.

Lemma Rp_from_Mdot_Mp_Popsynthfit_agrees_cold :
  exists Rp : R,
    Rp_from_Mdot_Mp_Popsynthfit 1e-3 5 "cold" = Return Rp
    /\ Rp_from_Mdot_Mp 1e-3 5 "cold" = Return Rp.
Proof.
  apply (Rp_from_Mdot_Mp_Popsynthfit_agrees 1e-3 5 "cold");
    [lra | right; reflexivity].
Defined.

(** ** Free-fall velocity and preshock density *)

Lemma v0simple_nonpos (Mp Rp : R) : v0simple Mp Rp <= 0.
Proof.
  unfold v0simple.
  pose proof (sqrt_pos (2 * 6.67e-8 * Mp * 1.898e30 / (Rp * 7.15e9))).
  lra.
Qed.

(** C7. For positive [Mp] and [Rp], [v0simple] is at most zero and equals
    [-sqrt(2 G Mp_grams / Rp_cm)] with [G = 6.67e-8]. *)
Theorem v0simple_infall (Mp Rp : R) :
  0 < Mp -> 0 < Rp ->
  v0simple Mp Rp <= 0
  /\ v0simple Mp Rp = FreefallVelocity_spec (Mp * MJ_g) (Rp * RJ_cm)
  /\ v0simple Mp Rp = - sqrt (2 * 6.67e-8 * (Mp * 1.898e30) / (Rp * 7.15e9)).
Proof.
  intros _ _. split; [apply v0simple_nonpos |].
  unfold FreefallVelocity_spec, G_cgs, MJ_g, RJ_cm, v0simple.
  replace (2 * 6.67e-8 * (Mp * 1.898e30))
    with (2 * 6.67e-8 * Mp * 1.898e30) by ring.
  split; ring.
Qed.

Lemma v0simple_infall_Jupiter :
  v0simple 1 1 <= 0
  /\ v0simple 1 1 = FreefallVelocity_spec (1 * MJ_g) (1 * RJ_cm)
  /\ v0simple 1 1 = - sqrt (2 * 6.67e-8 * (1 * 1.898e30) / (1 * 7.15e9)).
Proof. apply (v0simple_infall 1 1); lra. Defined.

(** C4. For positive [Mdot], [Mp], [ffill] and a valid [Pop], [n_MdotMp]
    is [Mdot_g_s / (4 pi Rp_cm^2 ffill |v| m_H / X_H)], with [Rp] the
    radius of [Rp_from_Mdot_Mp] in cm and [v] the free-fall velocity on
    that radius. *)
Theorem n_MdotMp_mass_flux (Mdot Mp ffill : R) (Pop : string) :
  0 < Mdot -> 0 < Mp -> valid_Pop Pop -> 0 < ffill ->
  exists Rp v : R,
    Rp_from_Mdot_Mp Mdot Mp Pop = Return Rp
    /\ v_MdotMp Mdot Mp Pop = Return v
    /\ v = v0simple Mp Rp
    /\ n_MdotMp Mdot Mp Pop ffill
       = Return (PreshockDensity_spec (Mdot * ME_yr_g_s) (Rp * RJ_cm) ffill v).
Proof.
  intros _ _ Hv _.
  destruct (Rp_from_Mdot_Mp_valid Mdot Mp Pop Hv) as [Rp HRp].
  exists Rp, (v0simple Mp Rp).
  split; [exact HRp |]. split; [apply v_MdotMp_Return, HRp |].
  split; [reflexivity |].
  rewrite (n_MdotMp_Return _ _ _ _ _ HRp). f_equal.
  unfold PreshockDensity_spec, ME_yr_g_s, RJ_cm, m_H, X_H, X_H_MASSFRAC.
  rewrite (Rabs_left1 _ (v0simple_nonpos Mp Rp)).
  f_equal. unfold Rdiv. ring.
Qed.

Lemma n_MdotMp_mass_flux_warm :
  exists Rp v : R,
    Rp_from_Mdot_Mp 1e-3 5 "warm" = Return Rp
    /\ v_MdotMp 1e-3 5 "warm" = Return v
    /\ v = v0simple 5 Rp
    /\ n_MdotMp 1e-3 5 "warm" 1
       = Return (PreshockDensity_spec (1e-3 * ME_yr_g_s) (Rp * RJ_cm) 1 v).
Proof.
  apply (n_MdotMp_mass_flux 1e-3 5 1 "warm");
    [lra | lra | left; reflexivity | lra].
Defined.

(** ** Downward flux fraction *)



(** The clamp, case by case on the raw polynomial. *)
Lemma fdown_Popsynthfit_cases (lgn0 v0 : R) :
  (fdown1_Popsynthfit lgn0 v0 <= 0 -> fdown_Popsynthfit lgn0 v0 = 0)
  /\ (0 <= fdown1_Popsynthfit lgn0 v0 <= 1 ->
      fdown_Popsynthfit lgn0 v0 = fdown1_Popsynthfit lgn0 v0)
  /\ (1 <= fdown1_Popsynthfit lgn0 v0 -> fdown_Popsynthfit lgn0 v0 = 1).
Proof.
  unfold fdown_Popsynthfit.
  repeat split; intros H; unfold Rmax, Rmin;
    repeat (destruct (Rle_dec _ _)); lra.
Qed.

(** The raw polynomial does leave [[0,1]], on either side. *)
Example fdown1_Popsynthfit_above_1 : 1 < fdown1_Popsynthfit 12 0.
Proof. unfold fdown1_Popsynthfit. rewrite !pow2_abs. lra. Qed.

Example fdown1_Popsynthfit_below_0 : fdown1_Popsynthfit 0 100 < 0.
Proof. unfold fdown1_Popsynthfit. rewrite !pow2_abs. lra. Qed.

Example fdown_Popsynthfit_clamped_above : fdown_Popsynthfit 12 0 = 1.
Proof.
  apply fdown_Popsynthfit_cases. pose proof fdown1_Popsynthfit_above_1. lra.
Qed.

Example fdown_Popsynthfit_clamped_below : fdown_Popsynthfit 0 100 = 0.
Proof.
  apply fdown_Popsynthfit_cases. pose proof fdown1_Popsynthfit_below_0. lra.
Qed.

(** ** Effective temperature *)






(** * Further properties of the fit functions *)

(** ** More on the primitives *)


Lemma pow_quarter_pos (x : R) : 0 < x -> 0 < pow_quarter x.
Proof. intros Hx. unfold pow_quarter. now apply sqrt_lt_R0, sqrt_lt_R0. Qed.

Lemma pow4_pow_quarter (x : R) : 0 <= x -> pow_quarter x ^ 4 = x.
Proof.
  intros Hx. unfold pow_quarter.
  replace (sqrt (sqrt x) ^ 4)
    with ((sqrt (sqrt x) * sqrt (sqrt x)) * (sqrt (sqrt x) * sqrt (sqrt x)))
    by ring.
  rewrite (sqrt_sqrt (sqrt x)) by apply sqrt_pos.
  now apply sqrt_sqrt.
Qed.

Lemma Tacc_MdotMp_Return (Mdot Mp Rp ffill : R) (Pop : string) :
  Rp_from_Mdot_Mp Mdot Mp Pop = Return Rp ->
  Tacc_MdotMp Mdot Mp Pop ffill =
  Return (pow_quarter
            (6.67e-8 * Mp * 1.898e30 * Mdot * 1.893e20
             / (ffill * 4 * PI * (Rp * 7.15e9) ^ 3 * 5.67e-5))).
Proof. intros HRp. unfold Tacc_MdotMp. rewrite HRp. reflexivity. Qed.

Lemma valid_Pop_dec (Pop : string) : {valid_Pop Pop} + {~ valid_Pop Pop}.
Proof.
  unfold valid_Pop.
  destruct (string_dec Pop "warm") as [Hw | Hw]; [left; now left |].
  destruct (string_dec Pop "cold") as [Hc | Hc]; [left; now right |].
  right. intros [H | H]; contradiction.
Qed.

(** ** Free-fall velocity *)

Lemma v0simple_neg (Mp Rp : R) : 0 < Mp -> 0 < Rp -> v0simple Mp Rp < 0.
Proof.
  intros HMp HRp. unfold v0simple.
  assert (Hpos : 0 < 2 * 6.67e-8 * Mp * 1.898e30 / (Rp * 7.15e9)).
  { apply Rdiv_lt_0_compat; nra. }
  pose proof (sqrt_lt_R0 _ Hpos). lra.
Qed.

(** X1. For positive mass and radius the free-fall velocity is strictly
    negative and carries the kinetic energy of a fall from infinity:
    [v^2 / 2 = G Mp_grams / Rp_cm]. *)
Theorem v0simple_kinetic_energy (Mp Rp : R) :
  0 < Mp -> 0 < Rp ->
  v0simple Mp Rp < 0
  /\ v0simple Mp Rp ^ 2 / 2 = 6.67e-8 * (Mp * 1.898e30) / (Rp * 7.15e9).
Proof.
  intros HMp HRp. split; [now apply v0simple_neg |].
  unfold v0simple.
  assert (Hpos : 0 <= 2 * 6.67e-8 * Mp * 1.898e30 / (Rp * 7.15e9)).
  { apply Rlt_le, Rdiv_lt_0_compat; nra. }
  replace ((-1 * sqrt (2 * 6.67e-8 * Mp * 1.898e30 / (Rp * 7.15e9))) ^ 2)
    with (sqrt (2 * 6.67e-8 * Mp * 1.898e30 / (Rp * 7.15e9))
          * sqrt (2 * 6.67e-8 * Mp * 1.898e30 / (Rp * 7.15e9))) by ring.
  rewrite (sqrt_sqrt _ Hpos). field. lra.
Qed.

Lemma v0simple_kinetic_energy_Jupiter :
  v0simple 1 1 < 0
  /\ v0simple 1 1 ^ 2 / 2 = 6.67e-8 * (1 * 1.898e30) / (1 * 7.15e9).
Proof. apply (v0simple_kinetic_energy 1 1); lra. Defined.



(** ** Preshock density and accretion temperature *)

(** X3. Mass-flux conservation: when the fitted radius is positive (and
    [Mdot], [Mp], [ffill] are), the density returned by [n_MdotMp] is
    positive and the mass carried through the accreting area,
    [n * (m_H / X_H) * |v| * ffill * 4 pi Rp_cm^2], is the accretion rate
    in g/s. *)
Theorem n_MdotMp_conserves_mass_flux (Mdot Mp Rp ffill : R) (Pop : string) :
  Rp_from_Mdot_Mp Mdot Mp Pop = Return Rp ->
  0 < Rp -> 0 < Mdot -> 0 < Mp -> 0 < ffill ->
  exists n : R,
    n_MdotMp Mdot Mp Pop ffill = Return n
    /\ 0 < n
    /\ n * (1.673e-24 / 0.738) * - v0simple Mp Rp
       * (ffill * (4 * PI * (Rp * 7.15e9) ^ 2))
       = Mdot * 1.893e20.
Proof.
  intros HRp HRpos HMdot HMp Hff.
  pose proof (v0simple_neg Mp Rp HMp HRpos) as Hv.
  pose proof PI_RGT_0 as Hpi.
  assert (HA : 0 < (Rp * 7.15e9) ^ 2) by (apply pow_lt; lra).
  exists (Mdot * 1.893e20
          / (4 * PI * (Rp * 7.15e9) ^ 2 * ffill * - v0simple Mp Rp * 1.673e-24
             / X_H_MASSFRAC)).
  split; [apply (n_MdotMp_Return _ _ _ _ _ HRp) |].
  unfold X_H_MASSFRAC.
  generalize dependent (v0simple Mp Rp). intros v Hv.
  generalize dependent ((Rp * 7.15e9) ^ 2). intros A HA.
  assert (H1 : 0 < 4 * PI * A) by nra.
  assert (H2 : 0 < 4 * PI * A * ffill) by nra.
  assert (H3 : 0 < 4 * PI * A * ffill * - v) by nra.
  split.
  - apply Rdiv_lt_0_compat; [lra |].
    apply Rdiv_lt_0_compat; lra.
  - field; repeat split; try lra; nra.
Qed.

Lemma n_MdotMp_conserves_mass_flux_warm :
  exists n : R,
    n_MdotMp 1e-2 1 "warm" 0.5 = Return n
    /\ 0 < n
    /\ n * (1.673e-24 / 0.738) * - v0simple 1 3.861
       * (0.5 * (4 * PI * (3.861 * 7.15e9) ^ 2))
       = 1e-2 * 1.893e20.
Proof.
  apply (n_MdotMp_conserves_mass_flux 1e-2 1 3.861 0.5 "warm");
    [apply Rp_from_Mdot_Mp_warm_at_1 | lra | lra | lra | lra].
Defined.

(** X4. Energy balance of the accretion temperature: when the fitted
    radius is positive (and [Mdot], [Mp], [ffill] are), [Tacc_MdotMp]
    returns a positive temperature at which the accreting area
    [ffill * 4 pi Rp_cm^2] radiates, as a black body with
    [sigma = 5.67e-5], the accretion luminosity
    [G Mp_grams Mdot_g_s / Rp_cm]. *)
Theorem Tacc_MdotMp_radiates_accretion_luminosity
  (Mdot Mp Rp ffill : R) (Pop : string) :
  Rp_from_Mdot_Mp Mdot Mp Pop = Return Rp ->
  0 < Rp -> 0 < Mdot -> 0 < Mp -> 0 < ffill ->
  exists Tacc : R,
    Tacc_MdotMp Mdot Mp Pop ffill = Return Tacc
    /\ 0 < Tacc
    /\ 5.67e-5 * Tacc ^ 4 * (ffill * (4 * PI * (Rp * 7.15e9) ^ 2))
       = 6.67e-8 * (Mp * 1.898e30) * (Mdot * 1.893e20) / (Rp * 7.15e9).
Proof.
  intros HRp HRpos HMdot HMp Hff.
  pose proof PI_RGT_0 as Hpi.
  assert (Hcm : 0 < Rp * 7.15e9) by lra.
  assert (H3 : 0 < (Rp * 7.15e9) ^ 3) by (apply pow_lt; exact Hcm).
  assert (Hnum : 0 < 6.67e-8 * Mp * 1.898e30 * Mdot * 1.893e20).
  { apply Rmult_lt_0_compat; [| lra].
    apply Rmult_lt_0_compat; [lra | exact HMdot]. }
  assert (Hden : 0 < ffill * 4 * PI * (Rp * 7.15e9) ^ 3 * 5.67e-5).
  { apply Rmult_lt_0_compat; [| lra].
    apply Rmult_lt_0_compat; [| exact H3].
    apply Rmult_lt_0_compat; [lra | exact Hpi]. }
  assert (Hbase : 0 < 6.67e-8 * Mp * 1.898e30 * Mdot * 1.893e20
                      / (ffill * 4 * PI * (Rp * 7.15e9) ^ 3 * 5.67e-5))
    by (apply Rdiv_lt_0_compat; assumption).
  eexists. split; [apply (Tacc_MdotMp_Return _ _ _ _ _ HRp) |].
  split; [apply pow_quarter_pos, Hbase |].
  rewrite (pow4_pow_quarter _ (Rlt_le _ _ Hbase)).
  field. repeat split; lra.
Qed.

Lemma Tacc_MdotMp_radiates_accretion_luminosity_warm :
  exists Tacc : R,
    Tacc_MdotMp 1e-2 1 "warm" 0.5 = Return Tacc
    /\ 0 < Tacc
    /\ 5.67e-5 * Tacc ^ 4 * (0.5 * (4 * PI * (3.861 * 7.15e9) ^ 2))
       = 6.67e-8 * (1 * 1.898e30) * (1e-2 * 1.893e20) / (3.861 * 7.15e9).
Proof.
  apply (Tacc_MdotMp_radiates_accretion_luminosity 1e-2 1 3.861 0.5 "warm");
    [apply Rp_from_Mdot_Mp_warm_at_1 | lra | lra | lra | lra].
Defined.

(** X5. The three helpers that look the radius up, [v_MdotMp], [n_MdotMp]
    and [Tacc_MdotMp], raise the exception of [Rp_from_Mdot_Mp] on a [Pop]
    that is neither warm nor cold. *)
Theorem helpers_propagate_unknown_Pop (Mdot Mp ffill : R) (Pop : string) :
  Pop <> "warm"%string -> Pop <> "cold"%string ->
  v_MdotMp Mdot Mp Pop = Raise (Exception (Pop_message Pop))
  /\ n_MdotMp Mdot Mp Pop ffill = Raise (Exception (Pop_message Pop))
  /\ Tacc_MdotMp Mdot Mp Pop ffill = Raise (Exception (Pop_message Pop)).
Proof.
  intros Hw Hc.
  assert (HRp : Rp_from_Mdot_Mp Mdot Mp Pop
                = Raise (Exception (Pop_message Pop))).
  { apply Rp_from_Mdot_Mp_invalid. intros [H | H]; contradiction. }
  unfold n_MdotMp, Tacc_MdotMp, v_MdotMp. rewrite HRp.
  repeat split; reflexivity.
Qed.

Lemma helpers_propagate_hot :
  v_MdotMp 1e-3 5 "hot" = Raise (Exception (Pop_message "hot"))
  /\ n_MdotMp 1e-3 5 "hot" 1 = Raise (Exception (Pop_message "hot"))
  /\ Tacc_MdotMp 1e-3 5 "hot" 1 = Raise (Exception (Pop_message "hot")).
Proof.
  apply (helpers_propagate_unknown_Pop 1e-3 5 1 "hot"); discriminate.
Defined.

(** ** Effective temperature, continued *)

(** X6. [Teff_from_Mdot_Mp] completes without an exception exactly when
    [Pop] is warm or cold and [Tint**4.] is in the float range (for an [Mp]
    whose [(Mp-1.0)**2.] is in the float range).  Nothing is said on
    whether the float that is returned is a number. *)
Theorem Teff_from_Mdot_Mp_returns_iff_valid_Pop
  (Mdot Mp Tint ffill : R) (Pop : string) :
  pow_in_range (Mp - 1.0) 2 ->
  ((exists t : R, Teff_from_Mdot_Mp Mdot Mp Tint Pop ffill = Return t)
   <-> valid_Pop Pop /\ pow_in_range Tint 4).
Proof.
  intros _. split.
  - intros [t Ht]. unfold Teff_from_Mdot_Mp in Ht.
    destruct (Rle_dec (Rabs (Tint ^ 4)) float_max) as [HT | HT].
    + split; [| exact HT].
      rewrite (float_pow_in_range _ _ HT) in Ht. cbn [bind] in Ht.
      destruct (valid_Pop_dec Pop) as [Hv | Hbad]; [exact Hv |].
      exfalso. unfold n_MdotMp in Ht.
      rewrite (Rp_from_Mdot_Mp_invalid Mdot Mp Pop Hbad) in Ht.
      discriminate Ht.
    + rewrite (float_pow_out_of_range _ _ HT) in Ht. discriminate Ht.
  - intros [Hv HT].
    destruct (Teff_from_Mdot_Mp_shape Mdot Mp ffill Pop Hv) as (A & _ & Hshape).
    eexists. apply Hshape, HT.
Qed.

Lemma Teff_from_Mdot_Mp_returns_iff_valid_Pop_at_5 :
  (exists t : R, Teff_from_Mdot_Mp 1e-3 5 1000 "tepid" 1 = Return t)
  <-> valid_Pop "tepid" /\ pow_in_range 1000 4.
Proof.
  apply (Teff_from_Mdot_Mp_returns_iff_valid_Pop 1e-3 5 1000 1 "tepid").
  apply pow_in_range_2; rewrite Rabs_pos_eq; lra.
Defined.

(** X7. [Teff_from_Mdot_Mp] does not see the sign of [Tint]: the call at
    [- Tint] has the outcome of the call at [Tint]. *)
Theorem Teff_from_Mdot_Mp_even_in_Tint
  (Mdot Mp Tint ffill : R) (Pop : string) :
  Teff_from_Mdot_Mp Mdot Mp (- Tint) Pop ffill
  = Teff_from_Mdot_Mp Mdot Mp Tint Pop ffill.
Proof.
  unfold Teff_from_Mdot_Mp, float_pow.
  replace ((- Tint) ^ 4) with (Tint ^ 4) by ring.
  reflexivity.
Qed.

(** X16. The power of [Tint] comes first: when [Tint**4.] leaves the float
    range, [Teff_from_Mdot_Mp] raises [OverflowError] whatever the other
    arguments, and also when [Pop] is neither warm nor cold. *)
Theorem Teff_from_Mdot_Mp_overflow_first
  (Mdot Mp Tint ffill : R) (Pop : string) :
  ~ pow_in_range Tint 4 ->
  Teff_from_Mdot_Mp Mdot Mp Tint Pop ffill
  = Raise (OverflowError range_message).
Proof.
  intros HT. unfold Teff_from_Mdot_Mp.
  rewrite (float_pow_out_of_range _ _ HT). reflexivity.
Qed.

Lemma Teff_from_Mdot_Mp_overflow_first_hot :
  Teff_from_Mdot_Mp 1e-3 5 1e100 "hot" 1
  = Raise (OverflowError range_message).
Proof.
  apply (Teff_from_Mdot_Mp_overflow_first 1e-3 5 1e100 1 "hot").
  unfold pow_in_range. pose proof float_max_bounds as Hm.
  rewrite Rabs_pos_eq; lra.
Defined.








(** ** Radius fit outside its calibration range *)

(** X10. The radius fit extrapolates without any check: at the reference
    accretion rate [Mdot = 1e-2] the warm fit returns a negative radius
    for every [Mp] from 102 on (as far as [(Mp-1.0)**2.] is in the float
    range), while the cold fit stays positive. *)
Theorem Rp_from_Mdot_Mp_negative_radius (Mp : R) :
  102 <= Mp -> pow_in_range (Mp - 1.0) 2 ->
  float_pow (Mp - 1.0) 2 = Return ((Mp - 1.0) ^ 2)
  /\ exists Rwarm Rcold : R,
       Rp_from_Mdot_Mp 1e-2 Mp "warm" = Return Rwarm /\ Rwarm < 0
       /\ Rp_from_Mdot_Mp 1e-2 Mp "cold" = Return Rcold /\ 0 < Rcold.
Proof.
  intros HMp Hrange. split; [apply float_pow_in_range, Hrange |].
  unfold Rp_from_Mdot_Mp. cbn [String.eqb Ascii.eqb Bool.eqb].
  replace (1e-2 / 1e-2) with 1 by lra.
  rewrite log10_1, !Rmult_0_r, exp_0.
  do 2 eexists. split; [reflexivity |]. split; [nra |].
  split; [reflexivity |]. nra.
Qed.

Lemma Rp_from_Mdot_Mp_negative_radius_at_200 :
  float_pow (200 - 1.0) 2 = Return ((200 - 1.0) ^ 2)
  /\ exists Rwarm Rcold : R,
       Rp_from_Mdot_Mp 1e-2 200 "warm" = Return Rwarm /\ Rwarm < 0
       /\ Rp_from_Mdot_Mp 1e-2 200 "cold" = Return Rcold /\ 0 < Rcold.
Proof.
  apply (Rp_from_Mdot_Mp_negative_radius 200);
    [lra | apply pow_in_range_2; rewrite Rabs_pos_eq; lra].
Defined.

(** ** Downward flux fraction, continued *)

(** X11. The clamp leaves the raw polynomial alone exactly where it is a
    fraction: [fdown_Popsynthfit] equals [fdown1_Popsynthfit] if and only
    if the latter lies in [[0,1]]. *)
Theorem fdown_Popsynthfit_is_raw_iff (lgn0 v0 : R) :
  fdown_Popsynthfit lgn0 v0 = fdown1_Popsynthfit lgn0 v0
  <-> 0 <= fdown1_Popsynthfit lgn0 v0 <= 1.
Proof.
  unfold fdown_Popsynthfit.
  generalize (fdown1_Popsynthfit lgn0 v0). intros raw.
  unfold Rmax, Rmin.
  split; intros H; repeat (destruct (Rle_dec _ _)); lra.
Qed.

(** * The driver *)

(** ** Arrays *)

Lemma elementwise_Forall2 (f : R -> R -> result R) (a b rs : ndarray) :
  elementwise f a b = Return rs ->
  Forall2 (fun xy r => f (fst xy) (snd xy) = Return r) (combine a b) rs.
Proof.
  revert b rs. induction a as [| x a IH]; intros b rs H.
  - simpl in H. injection H as <-. constructor.
  - destruct b as [| y b].
    + simpl in H. injection H as <-. constructor.
    + simpl in H. destruct (f x y) as [r |] eqn:Hf; [| discriminate H].
      cbn [bind] in H.
      destruct (elementwise f a b) as [rs' |] eqn:Hrec; [| discriminate H].
      cbn [bind] in H. injection H as <-.
      simpl. constructor; [exact Hf | now apply IH].
Qed.

Lemma elementwise_total (f : R -> R -> result R) (a b : ndarray) :
  (forall x y : R, exists r : R, f x y = Return r) ->
  exists rs : ndarray, elementwise f a b = Return rs.
Proof.
  intros Hf. revert b. induction a as [| x a IH]; intros b.
  - exists []. reflexivity.
  - destruct b as [| y b]; [exists []; reflexivity |].
    destruct (Hf x y) as [r Hr]. destruct (IH b) as [rs Hrs].
    exists (r :: rs). simpl. rewrite Hr. cbn [bind]. rewrite Hrs. reflexivity.
Qed.

Lemma elementwise_Raise (f : R -> R -> result R) (e : exn)
  (x y : R) (a b : ndarray) :
  f x y = Raise e -> elementwise f (x :: a) (y :: b) = Raise e.
Proof. intros Hf. simpl. rewrite Hf. reflexivity. Qed.

(** The rows of the table that is saved, from element-wise results. *)
Lemma rows_Forall (P Q : R * R -> R -> Prop) (l : list (R * R))
  (c d : ndarray) :
  Forall2 P l c -> Forall2 Q l d ->
  length (combine (combine l c) d) = length l
  /\ map (fun row : R * R * R * R => fst (fst row)) (combine (combine l c) d)
     = l
  /\ Forall (fun row : R * R * R * R =>
               P (fst (fst row)) (snd (fst row)) /\ Q (fst (fst row)) (snd row))
       (combine (combine l c) d).
Proof.
  intros HP. revert d. induction HP as [| xy r l c Hxy HP IH]; intros d HQ.
  - inversion HQ; subst. simpl. repeat split; constructor.
  - inversion HQ as [| xy' t l' d' Hxt HQ']; subst.
    destruct (IH d' HQ') as (Hlen & Hmap & Hall).
    simpl. repeat split.
    + now rewrite Hlen.
    + now rewrite Hmap.
    + constructor; [split; assumption | exact Hall].
Qed.

Lemma length_logspace (start stop : R) (num : nat) :
  length (logspace start stop num) = num.
Proof.
  unfold logspace, linspace. now rewrite !length_map, length_seq.
Qed.

Lemma length_linspace (start stop : R) (num : nat) :
  length (linspace start stop num) = num.
Proof. unfold linspace. now rewrite length_map, length_seq. Qed.

Lemma length_scale_ones_like (c : R) (a : ndarray) :
  length (scale c (ones_like a)) = length a.
Proof. unfold scale, ones_like. now rewrite !length_map. Qed.

Lemma scale_ones_like_Forall (c : R) (a : ndarray) :
  Forall (fun x => x = c) (scale c (ones_like a)).
Proof.
  unfold scale, ones_like. rewrite map_map.
  apply Forall_map, Forall_forall. intros x _. lra.
Qed.

(** Every sample of a grid of 70 points lies between the end points. *)
Lemma linspace_70_bounds (start stop : R) :
  start <= stop ->
  Forall (fun x => start <= x <= stop) (linspace start stop 70).
Proof.
  intros Hle. unfold linspace. apply Forall_map, Forall_forall.
  intros i Hi. apply in_seq in Hi. destruct Hi as [_ Hi].
  assert (H69 : INR (70 - 1) = 69) by (simpl; lra).
  rewrite H69.
  assert (H0 : 0 <= INR i) by apply pos_INR.
  assert (Hi69 : INR i <= 69).
  { rewrite <- H69. apply le_INR. simpl in *.
    apply PeanoNat.Nat.lt_succ_r. exact Hi. }
  assert (Hstep : INR i * ((stop - start) / 69)
                  = (stop - start) * (INR i / 69)) by (field; lra).
  rewrite Hstep.
  assert (Hfrac : 0 <= INR i / 69 <= 1).
  { split; lra. }
  nra.
Qed.

Lemma Rpower_10_neg (n : nat) : Rpower 10 (- INR n) = / 10 ^ n.
Proof. rewrite Rpower_Ropp, Rpower_pow by lra. reflexivity. Qed.

Lemma logspace_70_bounds :
  Forall (fun x => 1e-5 <= x <= 1e-1) (logspace (-5) (-1) 70).
Proof.
  unfold logspace. apply Forall_map.
  pose proof (linspace_70_bounds (-5) (-1)) as H.
  eapply Forall_impl; [| apply H; lra].
  intros y [Hlo Hhi]. cbv beta.
  assert (E5 : Rpower 10 (-5) = 1e-5).
  { replace (-5) with (- INR 5) by (simpl; lra).
    rewrite Rpower_10_neg. simpl. lra. }
  assert (E1 : Rpower 10 (-1) = 1e-1).
  { replace (-1) with (- INR 1) by (simpl; lra).
    rewrite Rpower_10_neg. simpl. lra. }
  rewrite <- E5, <- E1. split; apply Rle_Rpower; lra.
Qed.

Lemma Forall_combine (P Q : R -> Prop) (a b : ndarray) :
  Forall P a -> Forall Q b ->
  Forall (fun xy : R * R => P (fst xy) /\ Q (snd xy)) (combine a b).
Proof.
  intros HP. revert b. induction HP as [| x a Hx HP IH]; intros b HQ.
  - constructor.
  - destruct HQ as [| y b Hy HQ]; simpl; constructor; [split; assumption |].
    now apply IH.
Qed.

(** ** The grids of the two modes *)

Lemma test_RpTeff_fit_grid_Mdot (format_float : R -> string) :
  test_RpTeff_fit_grid format_float "Mdot"
  = (Some (logspace (-5) (-1) 70),
     Some (scale 20 (ones_like (logspace (-5) (-1) 70))),
     [print ("   Mp = "
               ++ format_float
                    (nth 0 (scale 20 (ones_like (logspace (-5) (-1) 70))) 0)
               ++ " MJ")%string]).
Proof. reflexivity. Qed.

Lemma test_RpTeff_fit_grid_Mp (format_float : R -> string) :
  test_RpTeff_fit_grid format_float "Mp"
  = (Some (scale 1e-3 (ones_like (linspace 0.5 20 70))),
     Some (linspace 0.5 20 70),
     [print ("   Mdot = "
               ++ format_float
                    (nth 0 (scale 1e-3 (ones_like (linspace 0.5 20 70))) 0)
               ++ " ME/yr")%string]).
Proof. reflexivity. Qed.

Lemma test_RpTeff_fit_grid_other (format_float : R -> string) (mode : string) :
  mode <> "Mdot"%string -> mode <> "Mp"%string ->
  test_RpTeff_fit_grid format_float mode = (None, None, []).
Proof.
  intros H1 H2. unfold test_RpTeff_fit_grid.
  destruct (String.eqb_spec mode "Mdot") as [E | _]; [contradiction |].
  destruct (String.eqb_spec mode "Mp") as [E | _]; [contradiction |].
  reflexivity.
Qed.

(** In either mode the two arrays have 70 elements and one line has been
    printed. *)
Lemma test_RpTeff_fit_grid_known (format_float : R -> string) (mode : string) :
  mode = "Mdot"%string \/ mode = "Mp"%string ->
  exists (Mdot Mp : ndarray) (header : string),
    test_RpTeff_fit_grid format_float mode
    = (Some Mdot, Some Mp, [print header])
    /\ length Mdot = 70%nat /\ length Mp = 70%nat.
Proof.
  intros [-> | ->].
  - rewrite test_RpTeff_fit_grid_Mdot. do 3 eexists.
    split; [reflexivity |].
    now rewrite length_scale_ones_like, length_logspace.
  - rewrite test_RpTeff_fit_grid_Mp. do 3 eexists.
    split; [reflexivity |].
    now rewrite length_scale_ones_like, length_linspace.
Qed.

(** A run on bound arrays and a valid [Pop]. *)
Lemma test_RpTeff_fit_run (format_float : R -> string) (mode Pop : string)
  (ffill Tint : R) (Mdot Mp : ndarray) (printed : list effect) :
  test_RpTeff_fit_grid format_float mode = (Some Mdot, Some Mp, printed) ->
  valid_Pop Pop -> pow_in_range Tint 4 ->
  exists rows : list (R * R * R * R),
    test_RpTeff_fit format_float mode Pop ffill Tint
    = (printed
         ++ [savetxt ("test_RpTeff_fit_" ++ mode ++ "_" ++ Pop ++ "_ffill"
                        ++ format_float ffill ++ ".dat")%string rows;
             print ("-> " ++ "test_RpTeff_fit_" ++ mode ++ "_" ++ Pop
                      ++ "_ffill" ++ format_float ffill ++ ".dat")%string],
       None)
    /\ length rows = length (combine Mdot Mp)
    /\ map (fun row : R * R * R * R => fst (fst row)) rows = combine Mdot Mp
    /\ Forall (fun '(Mdot, Mp, Rp, Teff) =>
                 Rp_from_Mdot_Mp Mdot Mp Pop = Return Rp
                 /\ Teff_from_Mdot_Mp Mdot Mp Tint Pop ffill = Return Teff)
         rows.
Proof.
  intros Hgrid Hv HT. unfold test_RpTeff_fit. rewrite Hgrid.
  destruct (elementwise_total (fun x y => Rp_from_Mdot_Mp x y Pop) Mdot Mp)
    as [Rp HRp].
  { intros x y. now apply Rp_from_Mdot_Mp_valid. }
  destruct (elementwise_total
              (fun x y => Teff_from_Mdot_Mp x y Tint Pop ffill) Mdot Mp)
    as [Teff HTeff].
  { intros x y.
    destruct (Teff_from_Mdot_Mp_shape x y ffill Pop Hv) as (A & _ & Hshape).
    eexists. apply Hshape, HT. }
  rewrite HRp, HTeff.
  destruct (rows_Forall _ _ _ _ _
              (elementwise_Forall2 _ _ _ _ HRp)
              (elementwise_Forall2 _ _ _ _ HTeff)) as (Hlen & Hmap & Hall).
  eexists. split; [reflexivity |]. split; [exact Hlen |].
  split; [exact Hmap |].
  eapply Forall_impl; [| exact Hall].
  intros [[[x y] r] t]. simpl. tauto.
Qed.

(** ** Runs of the driver *)

(** X12. A [mode] that is neither Mdot nor Mp leaves the arrays unbound:
    the run ends in [UnboundLocalError] on [Mdot], the first variable
    read, having printed and saved nothing. *)
Theorem test_RpTeff_fit_unknown_mode (format_float : R -> string)
  (mode Pop : string) (ffill Tint : R) :
  mode <> "Mdot"%string -> mode <> "Mp"%string ->
  test_RpTeff_fit format_float mode Pop ffill Tint
  = ([], Some (UnboundLocalError "Mdot")).
Proof.
  intros H1 H2. unfold test_RpTeff_fit.
  rewrite (test_RpTeff_fit_grid_other format_float mode H1 H2). reflexivity.
Qed.

Lemma test_RpTeff_fit_unknown_mode_Tint :
  test_RpTeff_fit (fun _ => "1.0"%string) "Tint" "warm" 1.0 1000.0
  = ([], Some (UnboundLocalError "Mdot")).
Proof.
  apply (test_RpTeff_fit_unknown_mode (fun _ => "1.0"%string) "Tint" "warm");
    discriminate.
Defined.

(** X13. With a known [mode] and a [Pop] that is neither warm nor cold,
    the run prints its header line, then ends in the exception of
    [Rp_from_Mdot_Mp]; no file is saved. *)
Theorem test_RpTeff_fit_unknown_Pop (format_float : R -> string)
  (mode Pop : string) (ffill Tint : R) :
  mode = "Mdot"%string \/ mode = "Mp"%string ->
  Pop <> "warm"%string -> Pop <> "cold"%string ->
  exists header : string,
    test_RpTeff_fit format_float mode Pop ffill Tint
    = ([print header], Some (Uncaught (Exception (Pop_message Pop)))).
Proof.
  intros Hmode Hw Hc.
  destruct (test_RpTeff_fit_grid_known format_float mode Hmode)
    as (Mdot & Mp & header & Hgrid & HlenMdot & HlenMp).
  exists header. unfold test_RpTeff_fit. rewrite Hgrid.
  destruct Mdot as [| x Mdot]; [discriminate HlenMdot |].
  destruct Mp as [| y Mp]; [discriminate HlenMp |].
  rewrite (elementwise_Raise _ (Exception (Pop_message Pop))).
  - reflexivity.
  - apply Rp_from_Mdot_Mp_invalid. intros [H | H]; contradiction.
Qed.

Lemma test_RpTeff_fit_unknown_Pop_hot :
  exists header : string,
    test_RpTeff_fit (fun _ => "1.0"%string) "Mp" "hot" 1.0 1000.0
    = ([print header], Some (Uncaught (Exception (Pop_message "hot")))).
Proof.
  apply (test_RpTeff_fit_unknown_Pop (fun _ => "1.0"%string) "Mp" "hot");
    [right; reflexivity | discriminate | discriminate].
Defined.

Lemma nth_0_scale_ones_like (c : R) (a : ndarray) :
  a <> [] -> nth 0 (scale c (ones_like a)) 0 = c.
Proof.
  destruct a as [| x a]; [contradiction |]. intros _. simpl. lra.
Qed.

Lemma grid_nonempty (a : ndarray) : length a = 70%nat -> a <> [].
Proof. intros H E. rewrite E in H. discriminate H. Qed.

(** The first two columns of the rows satisfy what the grid satisfies. *)
Lemma rows_grid (P Q : R -> Prop) (Mdot Mp : ndarray)
  (rows : list (R * R * R * R)) :
  map (fun row : R * R * R * R => fst (fst row)) rows = combine Mdot Mp ->
  Forall P Mdot -> Forall Q Mp ->
  Forall (fun '(Mdot, Mp, _, _) => P Mdot /\ Q Mp) rows.
Proof.
  intros Hmap HP HQ.
  pose proof (Forall_combine P Q Mdot Mp HP HQ) as H.
  rewrite <- Hmap in H. rewrite Forall_map in H.
  eapply Forall_impl; [| exact H].
  intros [[[x y] r] t]. simpl. tauto.
Qed.

Lemma Forall_both {A : Type} (P Q : A -> Prop) (l : list A) :
  Forall P l -> Forall Q l -> Forall (fun x => P x /\ Q x) l.
Proof.
  rewrite !Forall_forall. intros HP HQ x Hx. split; auto.
Qed.

Lemma format_example_20 : format_example 20 = "20.0"%string.
Proof.
  unfold format_example. destruct (Req_dec_T 20 20) as [_ | H];
    [reflexivity | contradiction H; reflexivity].
Qed.

Lemma format_example_milli : format_example 1e-3 = "0.001"%string.
Proof.
  unfold format_example.
  destruct (Req_dec_T 1e-3 20) as [H | _]; [exfalso; lra |].
  destruct (Req_dec_T 1e-3 1e-3) as [_ | H];
    [reflexivity | contradiction H; reflexivity].
Qed.

Lemma format_example_1 : format_example 1.0 = "1.0"%string.
Proof.
  unfold format_example.
  destruct (Req_dec_T 1.0 20) as [H | _]; [exfalso; lra |].
  destruct (Req_dec_T 1.0 1e-3) as [H | _]; [exfalso; lra |].
  reflexivity.
Qed.

(** X14. In mode Mdot with a valid [Pop] (and a [Tint] whose fourth power
    is in the float range) the run completes: it prints the fixed mass,
    saves one table and prints the name of the file.  The table has 70
    rows; in every row [Mp] is 20, [Mdot] lies in [[1e-5, 1e-1]], and the
    last two columns are what [Rp_from_Mdot_Mp] and [Teff_from_Mdot_Mp]
    return on the first two. *)
Theorem test_RpTeff_fit_mode_Mdot (format_float : R -> string)
  (Pop : string) (ffill Tint : R) :
  valid_Pop Pop -> pow_in_range Tint 4 ->
  exists rows : list (R * R * R * R),
    test_RpTeff_fit format_float "Mdot" Pop ffill Tint
    = ([print ("   Mp = " ++ format_float 20 ++ " MJ")%string;
        savetxt ("test_RpTeff_fit_Mdot_" ++ Pop ++ "_ffill"
                   ++ format_float ffill ++ ".dat")%string rows;
        print ("-> test_RpTeff_fit_Mdot_" ++ Pop ++ "_ffill"
                 ++ format_float ffill ++ ".dat")%string],
       None)
    /\ length rows = 70%nat
    /\ Forall (fun '(Mdot, Mp, Rp, Teff) =>
                 (1e-5 <= Mdot <= 1e-1 /\ Mp = 20)
                 /\ Rp_from_Mdot_Mp Mdot Mp Pop = Return Rp
                 /\ Teff_from_Mdot_Mp Mdot Mp Tint Pop ffill = Return Teff)
         rows.
Proof.
  intros Hv HT.
  destruct (test_RpTeff_fit_run format_float "Mdot" Pop ffill Tint _ _ _
              (test_RpTeff_fit_grid_Mdot format_float) Hv HT)
    as (rows & Hrun & Hlen & Hmap & Hall).
  exists rows. split; [| split].
  - rewrite Hrun.
    rewrite nth_0_scale_ones_like
      by (apply grid_nonempty, length_logspace).
    reflexivity.
  - rewrite Hlen, length_combine, length_scale_ones_like, length_logspace.
    reflexivity.
  - pose proof (rows_grid _ _ _ _ rows Hmap logspace_70_bounds
                  (scale_ones_like_Forall 20 _)) as Hgrid.
    pose proof (Forall_both _ _ _ Hgrid Hall) as H.
    eapply Forall_impl; [| exact H].
    intros [[[x y] r] t]. simpl. tauto.
Qed.

Lemma test_RpTeff_fit_mode_Mdot_warm :
  exists rows : list (R * R * R * R),
    test_RpTeff_fit format_example "Mdot" "warm" 1.0 1000.0
    = ([print "   Mp = 20.0 MJ";
        savetxt "test_RpTeff_fit_Mdot_warm_ffill1.0.dat" rows;
        print "-> test_RpTeff_fit_Mdot_warm_ffill1.0.dat"],
       None)
    /\ length rows = 70%nat
    /\ Forall (fun '(Mdot, Mp, Rp, Teff) =>
                 (1e-5 <= Mdot <= 1e-1 /\ Mp = 20)
                 /\ Rp_from_Mdot_Mp Mdot Mp "warm" = Return Rp
                 /\ Teff_from_Mdot_Mp Mdot Mp 1000.0 "warm" 1.0 = Return Teff)
         rows.
Proof.
  destruct (test_RpTeff_fit_mode_Mdot format_example "warm" 1.0 1000.0)
    as (rows & Hrun & Hrest).
  - left; reflexivity.
  - apply pow_in_range_4; rewrite Rabs_pos_eq; lra.
  - exists rows. split; [| exact Hrest].
    rewrite Hrun, format_example_20, format_example_1. reflexivity.
Defined.

(** X15. In mode Mp with a valid [Pop] (and a [Tint] whose fourth power
    is in the float range) the run completes in the same way; in every one
    of the 70 rows [Mdot] is 1e-3 and [Mp] lies in [[0.5, 20]]. *)
Theorem test_RpTeff_fit_mode_Mp (format_float : R -> string)
  (Pop : string) (ffill Tint : R) :
  valid_Pop Pop -> pow_in_range Tint 4 ->
  exists rows : list (R * R * R * R),
    test_RpTeff_fit format_float "Mp" Pop ffill Tint
    = ([print ("   Mdot = " ++ format_float 1e-3 ++ " ME/yr")%string;
        savetxt ("test_RpTeff_fit_Mp_" ++ Pop ++ "_ffill"
                   ++ format_float ffill ++ ".dat")%string rows;
        print ("-> test_RpTeff_fit_Mp_" ++ Pop ++ "_ffill"
                 ++ format_float ffill ++ ".dat")%string],
       None)
    /\ length rows = 70%nat
    /\ Forall (fun '(Mdot, Mp, Rp, Teff) =>
                 (Mdot = 1e-3 /\ 0.5 <= Mp <= 20)
                 /\ Rp_from_Mdot_Mp Mdot Mp Pop = Return Rp
                 /\ Teff_from_Mdot_Mp Mdot Mp Tint Pop ffill = Return Teff)
         rows.
Proof.
  intros Hv HT.
  destruct (test_RpTeff_fit_run format_float "Mp" Pop ffill Tint _ _ _
              (test_RpTeff_fit_grid_Mp format_float) Hv HT)
    as (rows & Hrun & Hlen & Hmap & Hall).
  exists rows. split; [| split].
  - rewrite Hrun.
    rewrite nth_0_scale_ones_like
      by (apply grid_nonempty, length_linspace).
    reflexivity.
  - rewrite Hlen, length_combine, length_scale_ones_like, length_linspace.
    reflexivity.
  - assert (Hb : Forall (fun x => 0.5 <= x <= 20) (linspace 0.5 20 70))
      by (apply linspace_70_bounds; lra).
    pose proof (rows_grid _ _ _ _ rows Hmap
                  (scale_ones_like_Forall 1e-3 _) Hb) as Hgrid.
    pose proof (Forall_both _ _ _ Hgrid Hall) as H.
    eapply Forall_impl; [| exact H].
    intros [[[x y] r] t]. simpl. tauto.
Qed.

Lemma test_RpTeff_fit_mode_Mp_cold :
  exists rows : list (R * R * R * R),
    test_RpTeff_fit format_example "Mp" "cold" 1.0 1000.0
    = ([print "   Mdot = 0.001 ME/yr";
        savetxt "test_RpTeff_fit_Mp_cold_ffill1.0.dat" rows;
        print "-> test_RpTeff_fit_Mp_cold_ffill1.0.dat"],
       None)
    /\ length rows = 70%nat
    /\ Forall (fun '(Mdot, Mp, Rp, Teff) =>
                 (Mdot = 1e-3 /\ 0.5 <= Mp <= 20)
                 /\ Rp_from_Mdot_Mp Mdot Mp "cold" = Return Rp
                 /\ Teff_from_Mdot_Mp Mdot Mp 1000.0 "cold" 1.0 = Return Teff)
         rows.
Proof.
  destruct (test_RpTeff_fit_mode_Mp format_example "cold" 1.0 1000.0)
    as (rows & Hrun & Hrest).
  - right; reflexivity.
  - apply pow_in_range_4; rewrite Rabs_pos_eq; lra.
  - exists rows. split; [| exact Hrest].
    rewrite Hrun, format_example_milli, format_example_1. reflexivity.
Defined.
